(** * compare_1d_2d: the curve fit and its error report

    A shallow embedding of [festim_model/compare_1d_2d.py]: the function
    [prop_errors], which fits the analytical permeation model to a flux
    series and reports three relative errors, and the three-call pattern of
    the sweep loops that consume it.

    Numbers are IEEE binary64 values, as Python floats and numpy float64 are:
    the kernel's primitive [float], with [PrimFloat.abs], [sub], [div] and
    [mul].  A numpy array is a [list float]; a dict with string keys is a
    [gmap string _]. *)

From Stdlib Require Import Floats ZArith Bool.
From stdpp Require Import gmap strings list.

Local Open Scope string_scope.

(** [np.abs] and unary minus on an array are elementwise. *)
Definition np_abs (a : list float) : list float := map abs a.

(** ** Exceptions, results and the plotting state *)

(** A Python exception, identified by the name of its class. *)
Record exn := Exn { exn_class : string }.

Inductive result (A : Type) : Type :=
| Ok (a : A)
| Raise (e : exn).
Arguments Ok {A} a.
Arguments Raise {A} e.

(** The calls made on [matplotlib.pyplot].  Colours are left out: they come
    from matplotlib's own colour cycle. *)
Inductive PltCall : Type :=
| plt_plot (x y : list float) (label : option string)
    (linestyle : option string) (marker : option string)
| plt_scatter (x y : list float) (label : string) (marker : string)
| plt_legend
| plt_show.

(** The state a call can change is the sequence of pyplot calls made so far;
    a computation either returns a value or raises, and keeps what it drew. *)
Definition Figure : Type := list PltCall.
Definition M (A : Type) : Type := Figure -> result A * Figure.

#[export] Instance M_ret : MRet M := fun A a fig => (Ok a, fig).
#[export] Instance M_bind : MBind M := fun A B f m fig =>
  match m fig with
  | (Ok a, fig') => f a fig'
  | (Raise e, fig') => (Raise e, fig')
  end.

Definition lift {A} (r : result A) : M A := fun fig => (r, fig).
Definition plt (c : PltCall) : M unit := fun fig => (Ok tt, (fig ++ [c])%list).
Definition when_ (b : bool) (m : M unit) : M unit := if b then m else mret tt.

(** ** Quantities and material properties (pint, h_transport_materials) *)

Record Quantity := mkQuantity { magnitude : float; units : string }.

(** A property of [htm]: [p.value(T)] is a quantity. *)
Record Property := mkProperty { value : float -> Quantity }.

(** The module-level material properties, lines 31 to 33. *)
Record Globals := mkGlobals {
  flibe_diffusivity : Property;
  flibe_solubility : Property;
  flibe_permeability : Property
}.

Definition with_flibe_permeability (p : Property) (g : Globals) : Globals :=
  {| flibe_diffusivity := flibe_diffusivity g;
     flibe_solubility := flibe_solubility g;
     flibe_permeability := p |}.

(** ** The fit *)

(** What [curve_fit] is given to fit: a function of the abscissae and of two
    parameters. *)
Definition Model : Type := list float -> float -> float -> list float.

(** What [curve_fit] returns: the optimal parameters, an array as long as the
    initial guess (here two entries, [props[0]] and [props[1]]), and their
    covariance matrix. *)
Definition FitOutput : Type := (float * float) * list (list float).

Definition KEY_DIFF : string := "diffusivity error".
Definition KEY_SOL : string := "solubility error".
Definition KEY_PERM : string := "permeability error".

(** The initial guess of line 50, a tuple (permeability, diffusivity). *)
Definition guess (g : Globals) (temp : float) : float * float :=
  ((magnitude (value (flibe_solubility g) temp)
    * magnitude (value (flibe_diffusivity g) temp))%float,
   magnitude (value (flibe_diffusivity g) temp)).

Section PropErrors.

(** [festim_model_copy.downstream_flux_salt(t, P_up, L, permeability, D)]
    and [scipy.optimize.curve_fit(f, xdata, ydata, p0)] are imported; the
    embedding is over any such pair of functions. *)
Variable downstream_flux_salt :
  list float -> float -> float -> float -> float -> list float.
Variable curve_fit :
  Model -> list float -> list float -> float * float -> result FitOutput.

Definition prop_errors (g : Globals) (flux times : list float)
    (salt_thickness temp P_up : float) (plot : bool) : M (gmap string float) :=
  let guess := guess g temp in
  '(props, cov) ← lift (curve_fit
      (fun t permeability D =>
         downstream_flux_salt t P_up salt_thickness permeability D)
      times (np_abs flux) guess);
  let perm :=
    (magnitude (value (flibe_diffusivity g) temp)
     * magnitude (value (flibe_solubility g) temp))%float in
  let sol := (fst props / snd props)%float in
  let diff_error :=
    ((magnitude (value (flibe_diffusivity g) temp) - snd props)
     / magnitude (value (flibe_diffusivity g) temp) * 100)%float in
  let sol_error :=
    ((magnitude (value (flibe_solubility g) temp) - sol)
     / magnitude (value (flibe_solubility g) temp) * 100)%float in
  let perm_error := ((perm - fst props) / perm * 100)%float in
  when_ plot (
    plt (plt_plot times
           (downstream_flux_salt times P_up salt_thickness (fst props) (snd props))
           None (Some "") (Some "o"));;
    plt (plt_scatter times (np_abs flux) "2D" ".");;
    plt (plt_plot times
           (downstream_flux_salt times P_up salt_thickness (fst props) (snd props))
           (Some "2D curve fit") (Some "dashed") None);;
    plt (plt_plot times
           (downstream_flux_salt times P_up salt_thickness
              (magnitude (value (flibe_diffusivity g) temp)
               * magnitude (value (flibe_solubility g) temp))%float
              (magnitude (value (flibe_diffusivity g) temp)))
           (Some "1D") None None);;
    plt plt_legend;;
    plt plt_show);;
  mret (<[KEY_DIFF := diff_error]>
          (<[KEY_SOL := sol_error]>
             (<[KEY_PERM := perm_error]> (∅ : gmap string float)))).

(** *** The sweep loops (lines 130 to 132 and 211 to 213) *)

(** [d[k]]: a missing key raises [KeyError]. *)
Definition getitem {A} (d : gmap string A) (k : string) : result A :=
  match d !! k with
  | Some v => Ok v
  | None => Raise (Exn "KeyError")
  end.

(** [errors[k].append(prop_errors(flux, times, L, T, P_up)[k])]: the list
    is looked up first, then the call is made with [plot] at its default,
    and the entry [k] of its result is appended. *)
Definition append_error (g : Globals) (k : string)
    (flux times : list float) (thickness T P_up : float)
    (errors : gmap string (list float)) : M (gmap string (list float)) :=
  l ← lift (getitem errors k);
  r ← prop_errors g flux times thickness T P_up false;
  x ← lift (getitem r k);
  mret (<[k := (l ++ [x])%list]> errors).

(** The three statements under "Calculating errors", for one grid point. *)
Definition calculating_errors (g : Globals)
    (flux_2d t_2d : list float) (thickness T_val P_up : float)
    (errors : gmap string (list float)) : M (gmap string (list float)) :=
  errors ← append_error g KEY_DIFF flux_2d t_2d thickness T_val P_up errors;
  errors ← append_error g KEY_SOL flux_2d t_2d thickness T_val P_up errors;
  append_error g KEY_PERM flux_2d t_2d thickness T_val P_up errors.

End PropErrors.

Arguments getitem {A} d k.

(** ** Vocabulary of the specification *)

(** Reference values at a temperature: the magnitudes of the two Calderoni
    correlations. *)
Definition reference_diffusivity (g : Globals) (T : float) : float :=
  magnitude (value (flibe_diffusivity g) T).
Definition reference_solubility (g : Globals) (T : float) : float :=
  magnitude (value (flibe_solubility g) T).
Definition reference_permeability (g : Globals) (T : float) : float :=
  (reference_diffusivity g T * reference_solubility g T)%float.

(** The signed relative error in percent, [(reference - fitted) / reference * 100]. *)
Definition rel_error (reference fitted : float) : float :=
  ((reference - fitted) / reference * 100)%float.

(** The derived solubility of a fitted (permeability, diffusivity) pair. *)
Definition derived_solubility (props : float * float) : float :=
  (fst props / snd props)%float.

(** The error dictionary for a fitted pair. *)
Definition error_report (g : Globals) (T : float) (props : float * float)
    : gmap string float :=
  <[KEY_DIFF := rel_error (reference_diffusivity g T) (snd props)]>
    (<[KEY_SOL := rel_error (reference_solubility g T) (derived_solubility props)]>
       (<[KEY_PERM := rel_error (reference_permeability g T) (fst props)]> ∅)).

Arguments error_report : simpl never.



Section FitCall.

Variable downstream_flux_salt :
  list float -> float -> float -> float -> float -> list float.
Variable curve_fit :
  Model -> list float -> list float -> float * float -> result FitOutput.

(** The one call [prop_errors] makes to the solver, line 54. *)
Definition fit_call (g : Globals) (flux times : list float)
    (salt_thickness temp P_up : float) : result FitOutput :=
  curve_fit
    (fun t permeability D =>
       downstream_flux_salt t P_up salt_thickness permeability D)
    times (np_abs flux) (guess g temp).

(** What the [if plot:] branch draws, lines 67 to 75. *)
Definition drawing (g : Globals) (flux times : list float)
    (salt_thickness temp P_up : float) (props : float * float) : list PltCall :=
  [ plt_plot times
      (downstream_flux_salt times P_up salt_thickness (fst props) (snd props))
      None (Some "") (Some "o");
    plt_scatter times (np_abs flux) "2D" ".";
    plt_plot times
      (downstream_flux_salt times P_up salt_thickness (fst props) (snd props))
      (Some "2D curve fit") (Some "dashed") None;
    plt_plot times
      (downstream_flux_salt times P_up salt_thickness
         (reference_permeability g temp) (reference_diffusivity g temp))
      (Some "1D") None None;
    plt_legend;
    plt_show ].

End FitCall.

(** ** A concrete set of collaborators

    Stand-ins for the imported functions, used to run the embedding on
    concrete inputs.  The model is linear in the permeability, as a
    permeation flux is.  [curve_fit] is a least-squares solver that keeps the
    second parameter at its initial value, solves for the first one from the
    first point where the model does not vanish, and reports a fit only when
    it is exact (zero residual at every point); otherwise it raises
    [RuntimeError], and with fewer observations than parameters it raises
    [TypeError], as scipy's [leastsq] does. *)
Module Sample.

Definition diffusivity : Property :=
  mkProperty (fun T => mkQuantity (T / 256) "m^2/s").
Definition solubility : Property :=
  mkProperty (fun T => mkQuantity (512 / T) "particle/m^3/Pa").
Definition permeability : Property :=
  mkProperty (fun T => mkQuantity 3 "particle/m/s/Pa").

Definition globals : Globals := mkGlobals diffusivity solubility permeability.

(** Steady-state flux [P_up * permeability / L], times a transient factor
    that rises from 0 to 1. *)
Definition downstream_flux_salt (t : list float) (P_up L permeability D : float)
    : list float :=
  map (fun ti => (P_up * permeability / L * (D * ti / (D * ti + L * L)))%float) t.

Fixpoint all_eqb (a b : list float) : bool :=
  match a, b with
  | [], [] => true
  | x :: a', y :: b' => PrimFloat.eqb x y && all_eqb a' b'
  | _, _ => false
  end.

Fixpoint scale_of (m y : list float) : option float :=
  match m, y with
  | mi :: m', yi :: y' =>
      if PrimFloat.eqb mi 0 then scale_of m' y' else Some (yi / mi)%float
  | _, _ => None
  end.

Definition curve_fit (f : Model) (xdata ydata : list float) (p0 : float * float)
    : result FitOutput :=
  if (length ydata <? 2)%nat then Raise (Exn "TypeError")
  else
    let c := default 0%float (scale_of (f xdata 1%float (snd p0)) ydata) in
    if all_eqb (f xdata c (snd p0)) ydata then Ok ((c, snd p0), [])
    else Raise (Exn "RuntimeError").

Definition prop_errors := prop_errors downstream_flux_salt curve_fit.
Definition calculating_errors := calculating_errors downstream_flux_salt curve_fit.

(** A flux series the model produces at the reference values for 1024 K
    (diffusivity 4, solubility 0.5, permeability 2), with unit thickness and
    pressure. *)
Definition times : list float := [0; 0.25; 0.75; 1.75]%float.
Definition flux : list float := [0; 1; 1.5; 1.75]%float.

(** Twice that flux: the model at permeability 4 and diffusivity 4. *)
Definition flux_twice : list float := [0; 2; 3; 3.5]%float.


(** The error lists of the sweep loop before its first grid point. *)
Definition errors0 : gmap string (list float) :=
  <["temperatures" := [1024%float]]>
    (<["thickness" := [1%float]]>
       (<[KEY_DIFF := []]> (<[KEY_SOL := []]> (<[KEY_PERM := []]> ∅)))).

End Sample.

(** ** The thickness and diameter sweep (lines 152 to 233) *)

(** [np.pi]. *)
Definition NP_PI : float := 0x1.921fb54442d18p+1%float.

(** [for x in items: body], threading the variables the body assigns. *)
Fixpoint for_each {A S : Type} (items : list A) (body : A -> S -> M S) (s : S)
    : M S :=
  match items with
  | [] => mret s
  | x :: items' => s' ← body x s; for_each items' body s'
  end.

(** [overall_error], a dict with five fixed keys. *)
Record OverallError := mkOverallError {
  oe_temperatures : list float;
  oe_thicknesses : list float;
  oe_diffusivity_error : list (list float);
  oe_solubility_error : list (list float);
  oe_permeability_error : list (list float)
}.

(** [data[name]] on the structured array [np.genfromtxt(..., names=True)]
    returns: a field that is not there raises [ValueError]. *)
Definition field (data : gmap string (list float)) (name : string)
    : result (list float) :=
  match data !! name with
  | Some column => Ok column
  | None => Raise (Exn "ValueError")
  end.

(** [a[-1]] on a one-dimensional array: [IndexError] when it is empty. *)
Definition last_item (a : list float) : result float :=
  match last a with
  | Some x => Ok x
  | None => Raise (Exn "IndexError")
  end.

Section ThicknessComp.

Variable downstream_flux_salt :
  list float -> float -> float -> float -> float -> list float.
Variable curve_fit :
  Model -> list float -> list float -> float * float -> result FitOutput.

(** [np.genfromtxt(path, delimiter=",", names=True)], the format
    specification [:.2f] and the float power [**] are taken as given.  The
    columns of a table are one-dimensional arrays; a file with a single data
    row, which numpy reads as a zero-dimensional record, is not covered. *)
Variable genfromtxt : string -> result (gmap string (list float)).
Variable format_2f : float -> string.
Variable float_pow : float -> float -> float.

(** Imported from [run_comparison] and [festim_model_copy]. *)
Variable T_values : list float.
Variable T_val : float.
Variable P_up : float.

(** The path of the derived quantities of one simulation, lines 177, 180. *)
Definition derived_quantities (thickness diameter : float) (dim : string)
    : string :=
  "2D_model/" ++ format_2f (thickness * 1000)%float ++ "mm_thick_"
  ++ format_2f (diameter * 1000)%float ++ "mm_wide/" ++ dim
  ++ "/derived_quantities.csv".

(** The body of [for thickness in thicknesses:], lines 176 to 213; the
    variables it assigns and the loop reads again are [errors] and
    [flux_diff].  Multiplying by a unit leaves the magnitudes as they are. *)
Definition thickness_body (g : Globals) (diameter thickness : float)
    (s : gmap string (list float) * list float)
    : M (gmap string (list float) * list float) :=
  let errors := fst s in
  let flux_diff := snd s in
  data_1d ← lift (genfromtxt (derived_quantities thickness diameter "1d"));
  data_2d ← lift (genfromtxt (derived_quantities thickness diameter "2d"));
  t_1d ← lift (field data_1d "ts");
  t_2d ← lift (field data_2d "ts");
  surface_3 ← lift (field data_1d "solute_flux_surface_3");
  let flux_1d :=
    map (fun x => (abs x / NP_PI / float_pow (diameter / 2) 2)%float) surface_3 in
  surface_3 ← lift (field data_2d "solute_flux_surface_3");
  let flux_2d :=
    map (fun x => (abs x / NP_PI / float_pow (diameter / 2) 2)%float) surface_3 in
  surface_2 ← lift (field data_2d "solute_flux_surface_2");
  let flux_lateral :=
    map (fun x => (abs x / NP_PI / diameter / thickness)%float) surface_2 in
  surface_1 ← lift (field data_2d "solute_flux_surface_1");
  let flux_bottom :=
    map (fun x => (x / NP_PI / float_pow (diameter / 2) 2)%float) surface_1 in
  top ← lift (last_item flux_2d);
  lateral ← lift (last_item flux_lateral);
  let flux_diff := (flux_diff ++ [(top - lateral)%float])%list in
  errors ← calculating_errors downstream_flux_salt curve_fit
              g flux_2d t_2d thickness T_val P_up errors;
  mret (errors, flux_diff).

(** The body of [for diameter in diameters:], lines 166 to 233; the
    variables it assigns and the loop reads again are [overall_error] and
    [flux_difference_total]. *)
Definition diameter_body (g : Globals) (thicknesses : list float)
    (diameter : float) (s : OverallError * list (list float))
    : M (OverallError * list (list float)) :=
  let overall_error := fst s in
  let flux_difference_total := snd s in
  let errors : gmap string (list float) :=
    <["temperatures" := T_values]>
      (<["thickness" := thicknesses]>
         (<[KEY_DIFF := []]> (<[KEY_SOL := []]> (<[KEY_PERM := []]> ∅)))) in
  let flux_diff : list float := [] in
  '(errors, flux_diff) ← for_each thicknesses (thickness_body g diameter)
                            (errors, flux_diff);
  diff ← lift (getitem errors KEY_DIFF);
  let overall_error :=
    {| oe_temperatures := oe_temperatures overall_error;
       oe_thicknesses := oe_thicknesses overall_error;
       oe_diffusivity_error :=
         (oe_diffusivity_error overall_error ++ [diff])%list;
       oe_solubility_error := oe_solubility_error overall_error;
       oe_permeability_error := oe_permeability_error overall_error |} in
  perm ← lift (getitem errors KEY_PERM);
  let overall_error :=
    {| oe_temperatures := oe_temperatures overall_error;
       oe_thicknesses := oe_thicknesses overall_error;
       oe_diffusivity_error := oe_diffusivity_error overall_error;
       oe_solubility_error := oe_solubility_error overall_error;
       oe_permeability_error :=
         (oe_permeability_error overall_error ++ [perm])%list |} in
  sol ← lift (getitem errors KEY_SOL);
  let overall_error :=
    {| oe_temperatures := oe_temperatures overall_error;
       oe_thicknesses := oe_thicknesses overall_error;
       oe_diffusivity_error := oe_diffusivity_error overall_error;
       oe_solubility_error :=
         (oe_solubility_error overall_error ++ [sol])%list;
       oe_permeability_error := oe_permeability_error overall_error |} in
  mret (overall_error,
        (flux_difference_total ++ [flux_diff])%list).

(** The block under [if thickness_comp:], up to the end of its loops: the
    error grids and the flux differences the contour plots are drawn from. *)
Definition thickness_comp (g : Globals) (thicknesses diameters : list float)
    : M (OverallError * list (list float)) :=
  let overall_error :=
    {| oe_temperatures := T_values;
       oe_thicknesses := thicknesses;
       oe_diffusivity_error := [];
       oe_solubility_error := [];
       oe_permeability_error := [] |} in
  let flux_difference_total : list (list float) := [] in
  for_each diameters (diameter_body g thicknesses)
    (overall_error, flux_difference_total).

End ThicknessComp.

(** ** Vocabulary for the sweep *)

(** A grid of [n_rows] rows of [n_cols] entries each. *)
Definition has_shape {A : Type} (n_rows n_cols : nat) (rows : list (list A))
    : Prop :=
  length rows = n_rows /\ Forall (fun row => length row = n_cols) rows.

(** A list of results is a result: the first exception wins. *)
Fixpoint traverse {A B : Type} (f : A -> result B) (l : list A)
    : result (list B) :=
  match l with
  | [] => Ok []
  | x :: l' =>
      match f x with
      | Raise e => Raise e
      | Ok y =>
          match traverse f l' with
          | Raise e => Raise e
          | Ok ys => Ok (y :: ys)
          end
      end
  end.

Section GridPoint.

Variable downstream_flux_salt :
  list float -> float -> float -> float -> float -> list float.
Variable curve_fit :
  Model -> list float -> list float -> float * float -> result FitOutput.
Variable genfromtxt : string -> result (gmap string (list float)).
Variable format_2f : float -> string.
Variable float_pow : float -> float -> float.
Variable T_val : float.
Variable P_up : float.

#[local] Abbreviation fit_call' := (fit_call downstream_flux_salt curve_fit).
#[local] Abbreviation path := (derived_quantities format_2f).

(** What one grid point reads and fits: the flux difference of line 193 and
    the fitted pair. *)
Definition grid_point (g : Globals) (diameter thickness : float)
    : result (float * (float * float)) :=
  match genfromtxt (path thickness diameter "1d") with
  | Raise e => Raise e
  | Ok data_1d =>
  match genfromtxt (path thickness diameter "2d") with
  | Raise e => Raise e
  | Ok data_2d =>
  match field data_1d "ts" with
  | Raise e => Raise e
  | Ok t_1d =>
  match field data_2d "ts" with
  | Raise e => Raise e
  | Ok t_2d =>
  match field data_1d "solute_flux_surface_3" with
  | Raise e => Raise e
  | Ok _ =>
  match field data_2d "solute_flux_surface_3" with
  | Raise e => Raise e
  | Ok surface_3 =>
  match field data_2d "solute_flux_surface_2" with
  | Raise e => Raise e
  | Ok surface_2 =>
  match field data_2d "solute_flux_surface_1" with
  | Raise e => Raise e
  | Ok _ =>
  let flux_2d :=
    map (fun x => (abs x / NP_PI / float_pow (diameter / 2) 2)%float) surface_3 in
  match last_item flux_2d with
  | Raise e => Raise e
  | Ok top =>
  match last_item
          (map (fun x => (abs x / NP_PI / diameter / thickness)%float) surface_2) with
  | Raise e => Raise e
  | Ok lateral =>
  match fit_call' g flux_2d t_2d thickness T_val P_up with
  | Raise e => Raise e
  | Ok (props, _) => Ok ((top - lateral)%float, props)
  end end end end end end end end end end end.

Definition diff_error_of (g : Globals) (p : float * (float * float)) : float :=
  rel_error (reference_diffusivity g T_val) (snd (snd p)).
Definition sol_error_of (g : Globals) (p : float * (float * float)) : float :=
  rel_error (reference_solubility g T_val) (derived_solubility (snd p)).
Definition perm_error_of (g : Globals) (p : float * (float * float)) : float :=
  rel_error (reference_permeability g T_val) (fst (snd p)).

(** A grid point that gets through the loop body with the fitted pair
    [props]: both files load, hold the fields the body reads, the two flux
    columns it indexes are not empty, and the solver returns [props] for the
    normalised top-surface flux of the 2D file. *)
Definition fitted_at (g : Globals) (diameter thickness : float)
    (props : float * float) : Prop :=
  exists data_1d data_2d t_1d t_2d top_1d surface_3 surface_2 surface_1 cov,
    genfromtxt (path thickness diameter "1d") = Ok data_1d /\
    genfromtxt (path thickness diameter "2d") = Ok data_2d /\
    data_1d !! "ts" = Some t_1d /\
    data_2d !! "ts" = Some t_2d /\
    data_1d !! "solute_flux_surface_3" = Some top_1d /\
    data_2d !! "solute_flux_surface_3" = Some surface_3 /\
    data_2d !! "solute_flux_surface_2" = Some surface_2 /\
    data_2d !! "solute_flux_surface_1" = Some surface_1 /\
    surface_3 ≠ [] /\ surface_2 ≠ [] /\
    fit_call' g
      (map (fun x => (abs x / NP_PI / float_pow (diameter / 2) 2)%float) surface_3)
      t_2d thickness T_val P_up = Ok (props, cov).

(** The 1D file of a grid point loads and holds the two fields the loop
    body reads from it. *)
Definition reads_1d (diameter thickness : float) : Prop :=
  exists data_1d,
    genfromtxt (path thickness diameter "1d") = Ok data_1d /\
    is_Some (data_1d !! "ts") /\
    is_Some (data_1d !! "solute_flux_surface_3").

(** An error grid grown by the rows of fitted grid points. *)
Definition with_rows (g : Globals) (overall_error : OverallError)
    (grid : list (list (float * (float * float)))) : OverallError :=
  {| oe_temperatures := oe_temperatures overall_error;
     oe_thicknesses := oe_thicknesses overall_error;
     oe_diffusivity_error :=
       (oe_diffusivity_error overall_error
        ++ map (map (diff_error_of g)) grid)%list;
     oe_solubility_error :=
       (oe_solubility_error overall_error
        ++ map (map (sol_error_of g)) grid)%list;
     oe_permeability_error :=
       (oe_permeability_error overall_error
        ++ map (map (perm_error_of g)) grid)%list |}.

End GridPoint.

(** ** Concrete collaborators for the sweep

    Stand-ins for the file reader, the number format and the power, on a
    grid of one thickness (1) and two diameters (2 and 4); the model and the
    solver are those of [Sample]. *)
Module SampleSweep.

Definition format_2f (x : float) : string :=
  if PrimFloat.eqb x 1000 then "1000.00"
  else if PrimFloat.eqb x 2000 then "2000.00"
  else if PrimFloat.eqb x 4000 then "4000.00"
  else "nan".

Definition float_pow (x y : float) : float :=
  if PrimFloat.eqb y 2 then (x * x)%float else nan.

Definition table (ts s1 s2 s3 : list float) : gmap string (list float) :=
  <["ts" := ts]>
    (<["solute_flux_surface_1" := s1]>
       (<["solute_flux_surface_2" := s2]>
          (<["solute_flux_surface_3" := s3]> ∅))).

Definition one_d : gmap string (list float) :=
  table [0; 0.25]%float [0; -1]%float [0; 0]%float [0; 5]%float.

Definition files : list (string * gmap string (list float)) :=
  [ ("2D_model/1000.00mm_thick_2000.00mm_wide/1d/derived_quantities.csv", one_d);
    ("2D_model/1000.00mm_thick_2000.00mm_wide/2d/derived_quantities.csv",
     table [0; 0.25]%float [0; -3]%float [0; 1]%float [0; 3]%float);
    ("2D_model/1000.00mm_thick_4000.00mm_wide/1d/derived_quantities.csv", one_d);
    ("2D_model/1000.00mm_thick_4000.00mm_wide/2d/derived_quantities.csv",
     table [0; 0.25]%float [0; -8]%float [0; 2]%float [0; -8]%float) ].

Fixpoint read (fs : list (string * gmap string (list float))) (p : string)
    : result (gmap string (list float)) :=
  match fs with
  | [] => Raise (Exn "FileNotFoundError")
  | (q, t) :: fs' => if String.eqb p q then Ok t else read fs' p
  end.

Definition genfromtxt : string -> result (gmap string (list float)) := read files.

(** The same 2D files beside other 1D files. *)
Definition other_one_d : gmap string (list float) :=
  table [0; 1; 2]%float [] [] [7; 7; 7]%float.

Definition other_files : list (string * gmap string (list float)) :=
  [ ("2D_model/1000.00mm_thick_2000.00mm_wide/1d/derived_quantities.csv",
     other_one_d);
    ("2D_model/1000.00mm_thick_4000.00mm_wide/1d/derived_quantities.csv",
     other_one_d) ] ++ files.

Definition other_genfromtxt : string -> result (gmap string (list float)) :=
  read other_files.

(** A 2D file with a header and no rows. *)
Definition empty_files : list (string * gmap string (list float)) :=
  [ ("2D_model/1000.00mm_thick_2000.00mm_wide/2d/derived_quantities.csv",
     table [] [] [] []) ] ++ files.

Definition T_values : list float := [1024%float].
Definition thicknesses : list float := [1%float].
Definition diameters : list float := [2; 4]%float.

Definition thickness_comp (gen : string -> result (gmap string (list float))) :=
  thickness_comp Sample.downstream_flux_salt Sample.curve_fit
    gen format_2f float_pow T_values 1024 1 Sample.globals
    thicknesses diameters.

(** What the sweep returns on these files: diffusivity errors of 0, and
    solubility and permeability errors of about 4.5 and 36.3 percent. *)
Definition expected : OverallError * list (list float) :=
  Eval vm_compute in
    match fst (thickness_comp genfromtxt []) with
    | Ok r => r
    | Raise _ => (mkOverallError [] [] [] [] [], [])
    end.

End SampleSweep.
(** * Lemmas *)

(** ** Binary64 facts used by the development *)

Section Binary64.


Lemma SFabs_idem (x : spec_float) : SFabs (SFabs x) = SFabs x.
Proof. by destruct x. Qed.

Lemma SFmul_comm prec emax (x y : spec_float) :
  SFmul prec emax x y = SFmul prec emax y x.
Proof.
  destruct x as [sx|sx| |sx mx ex], y as [sy|sy| |sy my ey]; simpl;
    rewrite ?(xorb_comm sx sy); try reflexivity.
  by rewrite (Pos.mul_comm mx my), (Z.add_comm ex ey).
Qed.


Lemma float_abs_idem (x : float) : abs (abs x) = abs x.
Proof.
  apply Prim2SF_inj. by rewrite !abs_spec, SFabs_idem.
Qed.

Lemma float_mul_comm (x y : float) : (x * y = y * x)%float.
Proof.
  apply Prim2SF_inj. rewrite !mul_spec. apply SFmul_comm.
Qed.

End Binary64.



(** ** What a call of [prop_errors] amounts to *)

Section Unfolding.

Variable downstream_flux_salt :
  list float -> float -> float -> float -> float -> list float.
Variable curve_fit :
  Model -> list float -> list float -> float * float -> result FitOutput.

Lemma prop_errors_unfold g flux times L T P plot fig :
  prop_errors downstream_flux_salt curve_fit g flux times L T P plot fig =
  match fit_call downstream_flux_salt curve_fit g flux times L T P with
  | Ok (props, _) =>
      (Ok (error_report g T props),
       (fig ++ (if plot then drawing downstream_flux_salt g flux times L T P props else []))%list)
  | Raise e => (Raise e, fig)
  end.
Proof.
  unfold prop_errors, fit_call, mbind, M_bind, lift.
  destruct (curve_fit _ _ _ _) as [[props cov]|e]; [|reflexivity].
  destruct plot; cbn.
  - unfold plt, mret, M_ret. cbn. rewrite <- !app_assoc. reflexivity.
  - unfold mret, M_ret. by rewrite app_nil_r.
Qed.

End Unfolding.

Lemma key_diff_sol : KEY_DIFF ≠ KEY_SOL.
Proof. discriminate. Qed.
Lemma key_diff_perm : KEY_DIFF ≠ KEY_PERM.
Proof. discriminate. Qed.
Lemma key_sol_perm : KEY_SOL ≠ KEY_PERM.
Proof. discriminate. Qed.

Create HintDb keys.
#[local] Hint Resolve key_diff_sol key_diff_perm key_sol_perm : keys.

Lemma error_report_diff g T props :
  error_report g T props !! KEY_DIFF
  = Some (rel_error (reference_diffusivity g T) (snd props)).
Proof. unfold error_report. by rewrite lookup_insert_eq. Qed.

Lemma error_report_sol g T props :
  error_report g T props !! KEY_SOL
  = Some (rel_error (reference_solubility g T) (derived_solubility props)).
Proof.
  unfold error_report.
  rewrite lookup_insert_ne by auto with keys.
  by rewrite lookup_insert_eq.
Qed.

Lemma error_report_perm g T props :
  error_report g T props !! KEY_PERM
  = Some (rel_error (reference_permeability g T) (fst props)).
Proof.
  unfold error_report.
  rewrite !lookup_insert_ne by auto with keys.
  by rewrite lookup_insert_eq.
Qed.

Lemma error_report_dom g T props :
  dom (error_report g T props) = ({[KEY_DIFF; KEY_SOL; KEY_PERM]} : gset string).
Proof.
  unfold error_report. rewrite !dom_insert_L, dom_empty_L. set_solver.
Qed.

Section Outcome.

Variable downstream_flux_salt :
  list float -> float -> float -> float -> float -> list float.
Variable curve_fit :
  Model -> list float -> list float -> float * float -> result FitOutput.

#[local] Abbreviation prop_errors' := (prop_errors downstream_flux_salt curve_fit).
#[local] Abbreviation fit_call' := (fit_call downstream_flux_salt curve_fit).

(** A call returns a dictionary exactly when the solver returns a fit, and
    the dictionary is the error report of that fit. *)
Lemma prop_errors_Ok g flux times L T P plot fig d :
  fst (prop_errors' g flux times L T P plot fig) = Ok d <->
  exists props cov,
    fit_call' g flux times L T P = Ok (props, cov) /\ d = error_report g T props.
Proof.
  rewrite prop_errors_unfold.
  destruct (fit_call' g flux times L T P) as [[props cov]|e]; cbn; split.
  - intros [= <-]. by exists props, cov.
  - by intros (props' & cov' & [= <- _] & ->).
  - discriminate.
  - by intros (? & ? & ? & _).
Qed.


End Outcome.

(** ** Zero flux *)



(** ** One statement of the sweep loop *)

Section Sweep.

Variable downstream_flux_salt :
  list float -> float -> float -> float -> float -> list float.
Variable curve_fit :
  Model -> list float -> list float -> float * float -> result FitOutput.

Lemma append_error_unfold g k flux times L T P errors fig l :
  errors !! k = Some l ->
  append_error downstream_flux_salt curve_fit g k flux times L T P errors fig =
  match fit_call downstream_flux_salt curve_fit g flux times L T P with
  | Ok (props, _) =>
      match error_report g T props !! k with
      | Some x => (Ok (<[k := (l ++ [x])%list]> errors), fig)
      | None => (Raise (Exn "KeyError"), fig)
      end
  | Raise e => (Raise e, fig)
  end.
Proof.
  intros Hl. unfold append_error, mbind, M_bind, lift, getitem.
  rewrite Hl, prop_errors_unfold.
  destruct (fit_call _ _ _ _ _ _ _ _) as [[props cov]|e]; [|reflexivity].
  rewrite app_nil_r.
  by destruct (error_report g T props !! k).
Qed.

End Sweep.

(** * The claims *)

Section Claims.

Variable downstream_flux_salt :
  list float -> float -> float -> float -> float -> list float.
Variable curve_fit :
  Model -> list float -> list float -> float * float -> result FitOutput.

#[local] Abbreviation prop_errors' := (prop_errors downstream_flux_salt curve_fit).
#[local] Abbreviation fit_call' := (fit_call downstream_flux_salt curve_fit).

(** C1: each of the three errors a successful call of [prop_errors] reports
    is [(reference - fitted) / reference * 100], with the reference value as
    first operand and as denominator; the reference permeability is the
    product reference diffusivity times reference solubility, and the
    permeability error has the same orientation as the other two. *)
Theorem prop_errors_relative_errors g flux times L T P plot fig d :
  fst (prop_errors' g flux times L T P plot fig) = Ok d ->
  exists props cov,
    fit_call' g flux times L T P = Ok (props, cov) /\
    d !! KEY_DIFF
      = Some ((reference_diffusivity g T - snd props)
              / reference_diffusivity g T * 100)%float /\
    d !! KEY_SOL
      = Some ((reference_solubility g T - fst props / snd props)
              / reference_solubility g T * 100)%float /\
    d !! KEY_PERM
      = Some ((reference_diffusivity g T * reference_solubility g T - fst props)
              / (reference_diffusivity g T * reference_solubility g T) * 100)%float.
Proof.
  intros (props & cov & Hfit & ->)%prop_errors_Ok.
  exists props, cov. split; [exact Hfit|].
  rewrite error_report_diff, error_report_sol, error_report_perm.
  done.
Qed.

(** C2, as amended: a successful call returns the error dictionary only.
    Its keys are exactly the three error keys and it is the error report of
    the fit the solver returned; the fitted pair itself is not returned. *)
Theorem prop_errors_returns_errors_only g flux times L T P plot fig d :
  fst (prop_errors' g flux times L T P plot fig) = Ok d ->
  dom d = ({[KEY_DIFF; KEY_SOL; KEY_PERM]} : gset string) /\
  exists props cov,
    fit_call' g flux times L T P = Ok (props, cov) /\
    d = error_report g T props.
Proof.
  intros (props & cov & Hfit & ->)%prop_errors_Ok.
  split; [apply error_report_dom|]. by exists props, cov.
Qed.

(** C7: the solubility is not fitted: the solver fits a pair (permeability,
    diffusivity), the solubility is the quotient of its two entries, and the
    solubility error is computed from that quotient. *)
Theorem solubility_is_derived g flux times L T P plot fig d :
  fst (prop_errors' g flux times L T P plot fig) = Ok d ->
  exists (props : float * float) cov,
    fit_call' g flux times L T P = Ok (props, cov) /\
    derived_solubility props = (fst props / snd props)%float /\
    d !! KEY_SOL
      = Some (rel_error (reference_solubility g T) (fst props / snd props)%float).
Proof.
  intros (props & cov & Hfit & ->)%prop_errors_Ok.
  exists props, cov. split; [exact Hfit|]. split; [reflexivity|].
  apply error_report_sol.
Qed.

(** C9: [flibe_permeability] is not read by [prop_errors]: replacing it by
    any other property changes nothing, and the reference of the
    permeability error is reference diffusivity times reference solubility,
    the pair the other two errors are anchored to. *)
Theorem flibe_permeability_unused g p flux times L T P plot fig :
  prop_errors' (with_flibe_permeability p g) flux times L T P plot fig
    = prop_errors' g flux times L T P plot fig /\
  match fst (prop_errors' g flux times L T P plot fig) with
  | Ok d =>
      exists props cov,
        fit_call' g flux times L T P = Ok (props, cov) /\
        d !! KEY_PERM
          = Some (rel_error
                    (magnitude (value (flibe_diffusivity g) T)
                     * magnitude (value (flibe_solubility g) T))%float
                    (fst props)) /\
        d !! KEY_DIFF
          = Some (rel_error (magnitude (value (flibe_diffusivity g) T)) (snd props)) /\
        d !! KEY_SOL
          = Some (rel_error (magnitude (value (flibe_solubility g) T))
                    (fst props / snd props)%float)
  | Raise _ => True
  end.
Proof.
  split; [reflexivity|].
  destruct (fst (prop_errors' g flux times L T P plot fig)) as [d|e] eqn:Hd;
    [|exact I].
  apply prop_errors_Ok in Hd as (props & cov & Hfit & ->).
  exists props, cov. split; [exact Hfit|].
  by rewrite error_report_diff, error_report_sol, error_report_perm.
Qed.



(** C6: the initial guess given to the solver is the pair (reference
    diffusivity times reference solubility, reference diffusivity), for
    every temperature: the tuple of line 50 equals it, and [prop_errors] is
    the solver called on that pair. *)
Theorem initial_guess_is_seed g flux times L T P plot fig :
  guess g T
    = ((reference_diffusivity g T * reference_solubility g T)%float,
       reference_diffusivity g T) /\
  prop_errors' g flux times L T P plot fig =
  match curve_fit
          (fun t permeability D => downstream_flux_salt t P L permeability D)
          times (np_abs flux)
          ((reference_diffusivity g T * reference_solubility g T)%float,
           reference_diffusivity g T) with
  | Ok (props, _) =>
      (Ok (error_report g T props),
       (fig ++ (if plot
                then drawing downstream_flux_salt g flux times L T P props
                else []))%list)
  | Raise e => (Raise e, fig)
  end.
Proof.
  assert (Hg : guess g T
    = ((reference_diffusivity g T * reference_solubility g T)%float,
       reference_diffusivity g T)).
  { unfold guess, reference_diffusivity, reference_solubility.
    f_equal. apply float_mul_comm. }
  split; [exact Hg|].
  rewrite prop_errors_unfold. unfold fit_call. by rewrite Hg.
Qed.



End Claims.

(** * The claims on concrete inputs *)

Lemma error_report_values g T props k v :
  error_report g T props !! k = Some v ->
  v = rel_error (reference_diffusivity g T) (snd props) \/
  v = rel_error (reference_solubility g T) (derived_solubility props) \/
  v = rel_error (reference_permeability g T) (fst props).
Proof.
  unfold error_report. rewrite !lookup_insert_Some, lookup_empty.
  intros [[_ <-]|[_ [[_ <-]|[_ [[_ <-]|[_ [=]]]]]]]; auto.
Qed.

(** Twice the reference flux: the fit is (4, 4) against references
    (permeability 2, diffusivity 4, solubility 0.5), and the errors are
    0, -100 and -100 percent. *)
Lemma prop_errors_relative_errors_witness :
  fst (Sample.prop_errors Sample.globals Sample.flux_twice Sample.times
         1 1024 1 false [])
    = Ok (error_report Sample.globals 1024 (4, 4)%float) /\
  exists props cov,
    fit_call Sample.downstream_flux_salt Sample.curve_fit Sample.globals
      Sample.flux_twice Sample.times 1 1024 1 = Ok (props, cov) /\
    error_report Sample.globals 1024 (4, 4)%float !! KEY_DIFF
      = Some ((reference_diffusivity Sample.globals 1024 - snd props)
              / reference_diffusivity Sample.globals 1024 * 100)%float /\
    error_report Sample.globals 1024 (4, 4)%float !! KEY_SOL
      = Some ((reference_solubility Sample.globals 1024 - fst props / snd props)
              / reference_solubility Sample.globals 1024 * 100)%float /\
    error_report Sample.globals 1024 (4, 4)%float !! KEY_PERM
      = Some ((reference_diffusivity Sample.globals 1024
               * reference_solubility Sample.globals 1024 - fst props)
              / (reference_diffusivity Sample.globals 1024
                 * reference_solubility Sample.globals 1024) * 100)%float.
Proof.
  assert (H : fst (Sample.prop_errors Sample.globals Sample.flux_twice
                     Sample.times 1 1024 1 false [])
              = Ok (error_report Sample.globals 1024 (4, 4)%float))
    by (vm_compute; reflexivity).
  split; [exact H|].
  exact (prop_errors_relative_errors Sample.downstream_flux_salt Sample.curve_fit
           Sample.globals Sample.flux_twice Sample.times 1 1024 1 false [] _ H).
Defined.

(** The reference flux itself: the fit is (2, 4), the derived solubility is
    2 / 4, and the solubility error is computed from it. *)
Lemma solubility_is_derived_witness :
  fst (Sample.prop_errors Sample.globals Sample.flux Sample.times
         1 1024 1 true [])
    = Ok (error_report Sample.globals 1024 (2, 4)%float) /\
  exists (props : float * float) cov,
    fit_call Sample.downstream_flux_salt Sample.curve_fit Sample.globals
      Sample.flux Sample.times 1 1024 1 = Ok (props, cov) /\
    derived_solubility props = (fst props / snd props)%float /\
    error_report Sample.globals 1024 (2, 4)%float !! KEY_SOL
      = Some (rel_error (reference_solubility Sample.globals 1024)
                (fst props / snd props)%float).
Proof.
  assert (H : fst (Sample.prop_errors Sample.globals Sample.flux
                     Sample.times 1 1024 1 true [])
              = Ok (error_report Sample.globals 1024 (2, 4)%float))
    by (vm_compute; reflexivity).
  split; [exact H|].
  exact (solubility_is_derived Sample.downstream_flux_salt Sample.curve_fit
           Sample.globals Sample.flux Sample.times 1 1024 1 true [] _ H).
Defined.

(** The same call returns a dictionary with the three error keys only. *)
Lemma prop_errors_returns_errors_only_witness :
  fst (Sample.prop_errors Sample.globals Sample.flux Sample.times
         1 1024 1 false [])
    = Ok (error_report Sample.globals 1024 (2, 4)%float) /\
  dom (error_report Sample.globals 1024 (2, 4)%float)
    = ({[KEY_DIFF; KEY_SOL; KEY_PERM]} : gset string) /\
  exists props cov,
    fit_call Sample.downstream_flux_salt Sample.curve_fit Sample.globals
      Sample.flux Sample.times 1 1024 1 = Ok (props, cov) /\
    error_report Sample.globals 1024 (2, 4)%float
      = error_report Sample.globals 1024 props.
Proof.
  assert (H : fst (Sample.prop_errors Sample.globals Sample.flux
                     Sample.times 1 1024 1 false [])
              = Ok (error_report Sample.globals 1024 (2, 4)%float))
    by (vm_compute; reflexivity).
  split; [exact H|].
  exact (prop_errors_returns_errors_only Sample.downstream_flux_salt
           Sample.curve_fit Sample.globals Sample.flux Sample.times
           1 1024 1 false [] _ H).
Defined.

(** C2, as stated, fails: on the reference flux the solver returns the pair
    (2, 4), whose derived solubility is 0.5, and the dictionary the caller
    receives holds none of the three under any key. *)
Lemma fitted_pair_not_returned :
  fit_call Sample.downstream_flux_salt Sample.curve_fit Sample.globals
    Sample.flux Sample.times 1 1024 1 = Ok ((2, 4)%float, []) /\
  derived_solubility (2, 4)%float = 0.5%float /\
  exists d,
    fst (Sample.prop_errors Sample.globals Sample.flux Sample.times
           1 1024 1 false []) = Ok d /\
    forall k, d !! k ≠ Some 2%float /\ d !! k ≠ Some 4%float
              /\ d !! k ≠ Some 0.5%float.
Proof.
  split; [by vm_compute|]. split; [by vm_compute|].
  exists (error_report Sample.globals 1024 (2, 4)%float).
  split; [by vm_compute|].
  assert (Hz : forall k v,
    error_report Sample.globals 1024 (2, 4)%float !! k = Some v ->
    PrimFloat.eqb v 0 = true).
  { intros k v [->|[->| ->]]%error_report_values; by vm_compute. }
  intros k. repeat split; intros Hk; apply Hz in Hk; by vm_compute in Hk.
Qed.





(** * More of the module: the sweep and the plotting branch *)

(** ** Results without state *)

Lemma traverse_length {A B} (f : A -> result B) l ys :
  traverse f l = Ok ys -> length ys = length l.
Proof.
  revert ys. induction l as [|x l IH]; intros ys; cbn.
  - by intros [= <-].
  - destruct (f x) as [y|e]; [|discriminate].
    destruct (traverse f l) as [ys'|e]; [|discriminate].
    intros [= <-]. cbn. by rewrite (IH ys').
Qed.

Lemma traverse_lookup {A B} (f : A -> result B) l ys i x :
  traverse f l = Ok ys -> l !! i = Some x ->
  exists y, f x = Ok y /\ ys !! i = Some y.
Proof.
  revert ys i. induction l as [|x' l IH]; intros ys i; cbn; [done|].
  destruct (f x') as [y'|e] eqn:Hx; [|discriminate].
  destruct (traverse f l) as [ys'|e]; [|discriminate].
  intros [= <-]. destruct i as [|i]; cbn.
  - intros [= <-]. by exists y'.
  - by apply IH.
Qed.


Lemma traverse_ext {A B} (f f' : A -> result B) l :
  (forall x, f x = f' x) -> traverse f l = traverse f' l.
Proof. intros H. induction l as [|x l IH]; cbn; [done|]. by rewrite H, IH. Qed.

Lemma traverse_Raise {A B} (f : A -> result B) l e :
  traverse f l = Raise e ->
  exists i x, l !! i = Some x /\ f x = Raise e /\
    forall j x', (j < i)%nat -> l !! j = Some x' -> exists y, f x' = Ok y.
Proof.
  induction l as [|x l IH]; cbn; [discriminate|].
  destruct (f x) as [y|e'] eqn:Hx.
  - destruct (traverse f l) as [ys|e'] eqn:Hl; [discriminate|].
    intros [= ->]. destruct (IH eq_refl) as (i & x0 & Hi & Hf & Hbefore).
    exists (S i), x0. repeat split; [done..|].
    intros [|j] x' Hj; cbn.
    + intros [= <-]. eauto.
    + apply Hbefore. lia.
  - intros [= ->]. exists 0%nat, x. repeat split; [done..|]. lia.
Qed.

Section SweepLemmas.

Variable downstream_flux_salt :
  list float -> float -> float -> float -> float -> list float.
Variable curve_fit :
  Model -> list float -> list float -> float * float -> result FitOutput.
Variable genfromtxt : string -> result (gmap string (list float)).
Variable format_2f : float -> string.
Variable float_pow : float -> float -> float.
Variable T_values : list float.
Variable T_val : float.
Variable P_up : float.

#[local] Abbreviation fit_call' := (fit_call downstream_flux_salt curve_fit).
#[local] Abbreviation path := (derived_quantities format_2f).
#[local] Abbreviation grid_point' :=
  (grid_point downstream_flux_salt curve_fit genfromtxt format_2f float_pow
     T_val P_up).
#[local] Abbreviation diff_error_of' := (diff_error_of T_val).
#[local] Abbreviation sol_error_of' := (sol_error_of T_val).
#[local] Abbreviation perm_error_of' := (perm_error_of T_val).

Lemma calculating_errors_unfold g flux times L T P errors fig ld ls lp :
  errors !! KEY_DIFF = Some ld ->
  errors !! KEY_SOL = Some ls ->
  errors !! KEY_PERM = Some lp ->
  calculating_errors downstream_flux_salt curve_fit g flux times L T P errors fig =
  match fit_call' g flux times L T P with
  | Ok (props, _) =>
      (Ok (<[KEY_PERM := (lp ++ [rel_error (reference_permeability g T)
                                   (fst props)])%list]>
             (<[KEY_SOL := (ls ++ [rel_error (reference_solubility g T)
                                     (derived_solubility props)])%list]>
                (<[KEY_DIFF := (ld ++ [rel_error (reference_diffusivity g T)
                                         (snd props)])%list]> errors))), fig)
  | Raise e => (Raise e, fig)
  end.
Proof.
  intros Hd Hs Hp. unfold calculating_errors, mbind, M_bind.
  rewrite (append_error_unfold _ _ _ _ _ _ _ _ _ _ _ _ Hd).
  destruct (fit_call' g flux times L T P) as [[props cov]|e] eqn:Hfit; [|done].
  rewrite error_report_diff.
  rewrite (append_error_unfold _ _ _ _ _ _ _ _ _ _ _ ls), Hfit, error_report_sol
    by (by rewrite lookup_insert_ne by auto with keys).
  rewrite (append_error_unfold _ _ _ _ _ _ _ _ _ _ _ lp), Hfit, error_report_perm
    by (by rewrite !lookup_insert_ne by auto with keys).
  reflexivity.
Qed.

Lemma thickness_body_unfold g diameter thickness errors flux_diff fig ld ls lp :
  errors !! KEY_DIFF = Some ld ->
  errors !! KEY_SOL = Some ls ->
  errors !! KEY_PERM = Some lp ->
  thickness_body downstream_flux_salt curve_fit genfromtxt format_2f float_pow
    T_val P_up g diameter thickness (errors, flux_diff) fig =
  match grid_point' g diameter thickness with
  | Ok p =>
      (Ok (<[KEY_PERM := (lp ++ [perm_error_of' g p])%list]>
             (<[KEY_SOL := (ls ++ [sol_error_of' g p])%list]>
                (<[KEY_DIFF := (ld ++ [diff_error_of' g p])%list]> errors)),
           (flux_diff ++ [fst p])%list), fig)
  | Raise e => (Raise e, fig)
  end.
Proof.
  intros Hd Hs Hp. unfold thickness_body, grid_point, mbind, M_bind, lift.
  cbv beta iota zeta. cbn [fst snd].
  repeat match goal with
  | |- context [match ?r with Ok _ => _ | Raise _ => _ end] =>
      lazymatch r with
      | genfromtxt _ => destruct r; [|reflexivity]
      | field _ _ => destruct r; [|reflexivity]
      | last_item _ => destruct r; [|reflexivity]
      end
  end.
  rewrite (calculating_errors_unfold _ _ _ _ _ _ _ _ _ _ _ Hd Hs Hp).
  by destruct (fit_call' _ _ _ _ _ _) as [[props cov]|e].
Qed.

#[local] Abbreviation thickness_body' :=
  (thickness_body downstream_flux_salt curve_fit genfromtxt format_2f float_pow
     T_val P_up).
#[local] Abbreviation diameter_body' :=
  (diameter_body downstream_flux_salt curve_fit genfromtxt format_2f float_pow
     T_values T_val P_up).
#[local] Abbreviation thickness_comp' :=
  (thickness_comp downstream_flux_salt curve_fit genfromtxt format_2f float_pow
     T_values T_val P_up).

Lemma thickness_loop_unfold g diameter thicknesses :
  forall errors flux_diff fig ld ls lp,
  errors !! KEY_DIFF = Some ld ->
  errors !! KEY_SOL = Some ls ->
  errors !! KEY_PERM = Some lp ->
  match traverse (grid_point' g diameter) thicknesses with
  | Ok pts =>
      exists errors',
        for_each thicknesses (thickness_body' g diameter) (errors, flux_diff) fig
          = (Ok (errors', (flux_diff ++ map fst pts)%list), fig) /\
        errors' !! KEY_DIFF = Some (ld ++ map (diff_error_of' g) pts)%list /\
        errors' !! KEY_SOL = Some (ls ++ map (sol_error_of' g) pts)%list /\
        errors' !! KEY_PERM = Some (lp ++ map (perm_error_of' g) pts)%list
  | Raise e =>
      for_each thicknesses (thickness_body' g diameter) (errors, flux_diff) fig
        = (Raise e, fig)
  end.
Proof.
  induction thicknesses as [|th ths IH]; intros errors flux_diff fig ld ls lp Hd Hs Hp.
  - cbn. exists errors. by rewrite !app_nil_r.
  - assert (Hstep :
      for_each (th :: ths) (thickness_body' g diameter) (errors, flux_diff) fig =
      match grid_point' g diameter th with
      | Ok p =>
          for_each ths (thickness_body' g diameter)
            (<[KEY_PERM := (lp ++ [perm_error_of' g p])%list]>
               (<[KEY_SOL := (ls ++ [sol_error_of' g p])%list]>
                  (<[KEY_DIFF := (ld ++ [diff_error_of' g p])%list]> errors)),
             (flux_diff ++ [fst p])%list) fig
      | Raise e => (Raise e, fig)
      end).
    { cbn [for_each]. unfold mbind at 1, M_bind at 1.
      rewrite (thickness_body_unfold _ _ _ _ _ _ _ _ _ Hd Hs Hp).
      by destruct (grid_point' g diameter th). }
    rewrite Hstep. clear Hstep. cbn [traverse].
    destruct (grid_point' g diameter th) as [p|e]; [|reflexivity].
    specialize (IH
      (<[KEY_PERM := (lp ++ [perm_error_of' g p])%list]>
         (<[KEY_SOL := (ls ++ [sol_error_of' g p])%list]>
            (<[KEY_DIFF := (ld ++ [diff_error_of' g p])%list]> errors)))
      (flux_diff ++ [fst p])%list fig
      (ld ++ [diff_error_of' g p])%list
      (ls ++ [sol_error_of' g p])%list
      (lp ++ [perm_error_of' g p])%list).
    destruct (traverse (grid_point' g diameter) ths) as [pts|e].
    + destruct IH as (errors' & Hrun & Hd' & Hs' & Hp').
      * rewrite !lookup_insert_ne by auto with keys. apply lookup_insert_eq.
      * rewrite lookup_insert_ne by auto with keys. apply lookup_insert_eq.
      * apply lookup_insert_eq.
      * exists errors'. cbn [map]. rewrite Hrun, Hd', Hs', Hp'.
        by rewrite <- !app_assoc.
    + apply IH.
      * rewrite !lookup_insert_ne by auto with keys. apply lookup_insert_eq.
      * rewrite lookup_insert_ne by auto with keys. apply lookup_insert_eq.
      * apply lookup_insert_eq.
Qed.

Lemma diameter_body_unfold g thicknesses diameter overall_error total fig :
  diameter_body' g thicknesses diameter (overall_error, total) fig =
  match traverse (grid_point' g diameter) thicknesses with
  | Ok pts =>
      (Ok (with_rows T_val g overall_error [pts],
           (total ++ [map fst pts])%list), fig)
  | Raise e => (Raise e, fig)
  end.
Proof.
  unfold diameter_body. cbv zeta. unfold mbind at 1, M_bind at 1.
  pose proof (thickness_loop_unfold g diameter thicknesses
    (<["temperatures" := T_values]>
       (<["thickness" := thicknesses]>
          (<[KEY_DIFF := []]> (<[KEY_SOL := []]> (<[KEY_PERM := []]> ∅)))))
    [] fig [] [] []) as H.
  destruct (traverse (grid_point' g diameter) thicknesses) as [pts|e].
  - destruct H as (errors' & -> & Hd & Hs & Hp); [done..|].
    unfold mbind, M_bind, lift, getitem. rewrite Hd, Hp, Hs. reflexivity.
  - by rewrite H.
Qed.

Lemma with_rows_cons g overall_error pts grid :
  with_rows T_val g (with_rows T_val g overall_error [pts]) grid
  = with_rows T_val g overall_error (pts :: grid).
Proof. unfold with_rows. cbn. by rewrite <- !app_assoc. Qed.

Lemma diameter_loop_unfold g thicknesses diameters :
  forall overall_error total fig,
  for_each diameters (diameter_body' g thicknesses) (overall_error, total) fig =
  match traverse (fun d => traverse (grid_point' g d) thicknesses) diameters with
  | Ok grid =>
      (Ok (with_rows T_val g overall_error grid,
           (total ++ map (map fst) grid)%list), fig)
  | Raise e => (Raise e, fig)
  end.
Proof.
  induction diameters as [|d ds IH]; intros overall_error total fig.
  - cbn. unfold with_rows. cbn. rewrite !app_nil_r. by destruct overall_error.
  - cbn [traverse for_each]. unfold mbind at 1, M_bind at 1.
    rewrite diameter_body_unfold.
    destruct (traverse (grid_point' g d) thicknesses) as [pts|e]; [|reflexivity].
    rewrite IH.
    destruct (traverse _ ds) as [grid|e]; [|reflexivity].
    cbn [map]. by rewrite with_rows_cons, <- app_assoc.
Qed.

Lemma thickness_comp_unfold g thicknesses diameters fig :
  thickness_comp' g thicknesses diameters fig =
  match traverse (fun d => traverse (grid_point' g d) thicknesses) diameters with
  | Ok grid =>
      (Ok ({| oe_temperatures := T_values;
              oe_thicknesses := thicknesses;
              oe_diffusivity_error := map (map (diff_error_of' g)) grid;
              oe_solubility_error := map (map (sol_error_of' g)) grid;
              oe_permeability_error := map (map (perm_error_of' g)) grid |},
           map (map fst) grid), fig)
  | Raise e => (Raise e, fig)
  end.
Proof.
  unfold thickness_comp. rewrite diameter_loop_unfold.
  by destruct (traverse _ diameters).
Qed.

End SweepLemmas.

(** ** More binary64 facts *)

Lemma float_finite_nonzero (x : float) :
  is_finite x = true -> is_zero x = false ->
  exists s m e, Prim2SF x = S754_finite s m e.
Proof.
  unfold is_finite, is_nan, is_infinity, is_zero.
  rewrite !FloatAxioms.eqb_spec, abs_spec.
  change (Prim2SF infinity) with (S754_infinity false).
  change (Prim2SF zero) with (S754_zero false).
  destruct (Prim2SF x) as [s|s| |s m e]; cbn; intros Hf Hz;
    try discriminate; eauto.
  rewrite orb_true_r in Hf. discriminate.
Qed.

(** Subtracting a finite number from itself gives zero, and zero stays zero
    when divided by a finite non-zero number and scaled by 100. *)
Lemma rel_error_same (x : float) :
  is_finite x = true -> is_zero x = false ->
  PrimFloat.eqb (rel_error x x) 0 = true.
Proof.
  intros Hf Hz. destruct (float_finite_nonzero x Hf Hz) as (s & m & e & Hx).
  unfold rel_error.
  rewrite FloatAxioms.eqb_spec, mul_spec, div_spec, sub_spec, Hx.
  change (Prim2SF 0) with (S754_zero false).
  unfold SF64sub, SFsub. rewrite Z.sub_diag. cbn [binary_normalize].
  unfold SF64div. cbn [SFdiv].
  unfold SF64mul.
  destruct (Prim2SF 100) as [s'|s'| |s' m' e'] eqn:H100; try discriminate H100.
  reflexivity.
Qed.

Lemma SFabs_binary_round_aux prec emax m e l :
  SFabs (binary_round_aux prec emax false m e l)
  = binary_round_aux prec emax false m e l.
Proof.
  unfold binary_round_aux.
  destruct (shr_fexp prec emax m e l) as [mrs' e'].
  destruct (shr_fexp prec emax _ e' loc_Exact) as [mrs'' e''].
  destruct (shr_m mrs''); [done| |done].
  by destruct (e'' <=? emax - prec)%Z.
Qed.

(** A quotient of two numbers without sign has no sign. *)
Lemma float_abs_div (a b : float) :
  abs a = a -> abs b = b -> abs (a / b) = (a / b)%float.
Proof.
  intros Ha Hb. apply (f_equal Prim2SF) in Ha, Hb. rewrite abs_spec in Ha, Hb.
  apply Prim2SF_inj. rewrite abs_spec, div_spec. unfold SF64div.
  destruct (Prim2SF a) as [sa|sa| |sa ma ea], (Prim2SF b) as [sb|sb| |sb mb eb];
    simplify_eq/=; try reflexivity.
  cbn [SFdiv xorb].
  destruct (SFdiv_core_binary prec emax (Z.pos ma) ea (Z.pos mb) eb) as [[mz ez] lz].
  apply SFabs_binary_round_aux.
Qed.

(** ** Lists and grid points *)

Lemma lookup_map {A B} (f : A -> B) (l : list A) (i : nat) :
  map f l !! i = f <$> (l !! i).
Proof. revert i. induction l as [|x l IH]; intros [|i]; cbn; auto. Qed.

Lemma traverse_Forall2 {A B} (f : A -> result B) l ys :
  traverse f l = Ok ys -> Forall2 (fun x y => f x = Ok y) l ys.
Proof.
  revert ys. induction l as [|x l IH]; intros ys; cbn.
  - intros [= <-]. constructor.
  - destruct (f x) as [y|e] eqn:Hx; [|discriminate].
    destruct (traverse f l) as [ys'|e]; [|discriminate].
    intros [= <-]. constructor; auto.
Qed.

Lemma traverse_ext_in {A B} (f f' : A -> result B) l :
  (forall x, x ∈ l -> f x = f' x) -> traverse f l = traverse f' l.
Proof.
  induction l as [|x l IH]; intros H; cbn; [done|].
  rewrite (H x) by left. rewrite IH; [done|].
  intros x' Hx'. apply H. by right.
Qed.

Lemma last_item_map_Ok {A} (f : A -> float) (l : list A) :
  l ≠ [] <-> exists x, last_item (map f l) = Ok x.
Proof.
  unfold last_item. split.
  - intros Hl. destruct (last (map f l)) as [x|] eqn:Hlast; [eauto|].
    apply last_None in Hlast. by destruct l.
  - intros [x Hx] ->. discriminate.
Qed.

Section SweepFacts.

Variable downstream_flux_salt :
  list float -> float -> float -> float -> float -> list float.
Variable curve_fit :
  Model -> list float -> list float -> float * float -> result FitOutput.
Variable genfromtxt : string -> result (gmap string (list float)).
Variable format_2f : float -> string.
Variable float_pow : float -> float -> float.
Variable T_values : list float.
Variable T_val : float.
Variable P_up : float.

#[local] Abbreviation grid_point' :=
  (grid_point downstream_flux_salt curve_fit genfromtxt format_2f float_pow
     T_val P_up).
#[local] Abbreviation fitted_at' :=
  (fitted_at downstream_flux_salt curve_fit genfromtxt format_2f float_pow
     T_val P_up).
#[local] Abbreviation thickness_body' :=
  (thickness_body downstream_flux_salt curve_fit genfromtxt format_2f float_pow
     T_val P_up).
#[local] Abbreviation thickness_comp' :=
  (thickness_comp downstream_flux_salt curve_fit genfromtxt format_2f float_pow
     T_values T_val P_up).

Lemma grid_point_fitted g diameter thickness props :
  (exists difference, grid_point' g diameter thickness = Ok (difference, props))
  <-> fitted_at' g diameter thickness props.
Proof.
  split.
  - intros [difference H]. unfold grid_point, field in H.
    destruct (genfromtxt (derived_quantities format_2f thickness diameter "1d"))
      as [data_1d|] eqn:H1; [|discriminate].
    destruct (genfromtxt (derived_quantities format_2f thickness diameter "2d"))
      as [data_2d|] eqn:H2; [|discriminate].
    destruct (data_1d !! "ts") as [t_1d|] eqn:H3; [|discriminate].
    destruct (data_2d !! "ts") as [t_2d|] eqn:H4; [|discriminate].
    destruct (data_1d !! "solute_flux_surface_3") as [top_1d|] eqn:H5;
      [|discriminate].
    destruct (data_2d !! "solute_flux_surface_3") as [surface_3|] eqn:H6;
      [|discriminate].
    destruct (data_2d !! "solute_flux_surface_2") as [surface_2|] eqn:H7;
      [|discriminate].
    destruct (data_2d !! "solute_flux_surface_1") as [surface_1|] eqn:H8;
      [|discriminate].
    destruct (last_item (map _ surface_3)) as [top|] eqn:Htop; [|discriminate].
    destruct (last_item (map _ surface_2)) as [lateral|] eqn:Hlat; [|discriminate].
    destruct (fit_call _ _ _ _ _ _ _ _) as [[props' cov]|] eqn:Hfit; [|discriminate].
    injection H as <- <-.
    exists data_1d, data_2d, t_1d, t_2d, top_1d, surface_3, surface_2, surface_1, cov.
    split; [exact H1|]. split; [exact H2|]. split; [exact H3|].
    split; [exact H4|]. split; [exact H5|]. split; [exact H6|].
    split; [exact H7|]. split; [exact H8|].
    split; [eapply last_item_map_Ok; eauto|].
    split; [eapply last_item_map_Ok; eauto|].
    exact Hfit.
  - intros (data_1d & data_2d & t_1d & t_2d & top_1d & surface_3 & surface_2
            & surface_1 & cov & H1 & H2 & H3 & H4 & H5 & H6 & H7 & H8
            & [top Htop]%(last_item_map_Ok
                 (fun x => (abs x / NP_PI / float_pow (diameter / 2) 2)%float))
            & [lateral Hlat]%(last_item_map_Ok
                 (fun x => (abs x / NP_PI / diameter / thickness)%float))
            & Hfit).
    unfold grid_point, field.
    rewrite H1, H2, H3, H4, H5, H6, H7, H8, Htop, Hlat, Hfit. eauto.
Qed.

(** ** The sweep *)

(** X4: on success each of the three error grids, and the grid of flux
    differences, has one row per diameter and one entry per thickness in
    every row: the shape of the mesh the contour plot is drawn on. *)
Theorem thickness_comp_shape g thicknesses diameters fig overall_error total fig' :
  thickness_comp' g thicknesses diameters fig
    = (Ok (overall_error, total), fig') ->
  has_shape (length diameters) (length thicknesses)
    (oe_diffusivity_error overall_error) /\
  has_shape (length diameters) (length thicknesses)
    (oe_solubility_error overall_error) /\
  has_shape (length diameters) (length thicknesses)
    (oe_permeability_error overall_error) /\
  has_shape (length diameters) (length thicknesses) total.
Proof.
  rewrite thickness_comp_unfold.
  destruct (traverse _ diameters) as [grid|e] eqn:Hgrid; [|discriminate].
  intros [= <- <- _]. cbn.
  assert (Hrows : Forall (fun pts : list (float * (float * float)) =>
                            length pts = length thicknesses) grid).
  { apply traverse_Forall2 in Hgrid.
    induction Hgrid as [|d pts ds grid Hd _ IH]; constructor; [|exact IH].
    by apply traverse_length in Hd. }
  assert (Hshape : forall (f : float * (float * float) -> float),
            has_shape (length diameters) (length thicknesses) (map (map f) grid)).
  { intros f. split.
    - rewrite length_map. by apply traverse_length in Hgrid.
    - apply Forall_map. eapply Forall_impl; [exact Hrows|].
      intros pts Hpts. cbn. by rewrite length_map. }
  auto.
Qed.

(** X5: on success the entry in row [i], column [j] of each error grid is the
    error of the fit at the [i]-th diameter and [j]-th thickness: the fit of
    the 2D file of that grid point, with the thickness as the length. *)
Theorem thickness_comp_entries g thicknesses diameters fig overall_error total
    fig' i j d th :
  thickness_comp' g thicknesses diameters fig
    = (Ok (overall_error, total), fig') ->
  diameters !! i = Some d ->
  thicknesses !! j = Some th ->
  exists props,
    fitted_at' g d th props /\
    oe_diffusivity_error overall_error !! i ≫= (.!! j)
      = Some ((reference_diffusivity g T_val - snd props)
              / reference_diffusivity g T_val * 100)%float /\
    oe_solubility_error overall_error !! i ≫= (.!! j)
      = Some ((reference_solubility g T_val - fst props / snd props)
              / reference_solubility g T_val * 100)%float /\
    oe_permeability_error overall_error !! i ≫= (.!! j)
      = Some ((reference_diffusivity g T_val * reference_solubility g T_val
               - fst props)
              / (reference_diffusivity g T_val * reference_solubility g T_val)
              * 100)%float.
Proof.
  rewrite thickness_comp_unfold.
  destruct (traverse _ diameters) as [grid|e] eqn:Hgrid; [|discriminate].
  intros [= <- <- _] Hi Hj. cbn.
  destruct (traverse_lookup _ _ _ _ _ Hgrid Hi) as (pts & Hpts & Hrow).
  destruct (traverse_lookup _ _ _ _ _ Hpts Hj) as ([difference props] & Hp & Hcol).
  exists props. split; [apply grid_point_fitted; eauto|].
  rewrite !lookup_map, Hrow. cbn. rewrite !lookup_map, Hcol. cbn.
  done.
Qed.


(** X8: the sweep draws nothing, whether it returns or raises. *)
Theorem thickness_comp_draws_nothing g thicknesses diameters fig :
  snd (thickness_comp' g thicknesses diameters fig) = fig.
Proof.
  rewrite thickness_comp_unfold. by destruct (traverse _ diameters).
Qed.

(** X7: when the sweep raises, the exception is the one the loop body raises at
    some grid point, and every grid point before it in that row was fitted:
    no exception is swallowed or replaced. *)
Theorem thickness_comp_failure g thicknesses diameters fig e fig' :
  thickness_comp' g thicknesses diameters fig = (Raise e, fig') ->
  exists i j d th,
    diameters !! i = Some d /\ thicknesses !! j = Some th /\
    (forall errors flux_diff ld ls lp fig0,
       errors !! KEY_DIFF = Some ld ->
       errors !! KEY_SOL = Some ls ->
       errors !! KEY_PERM = Some lp ->
       thickness_body' g d th (errors, flux_diff) fig0 = (Raise e, fig0)) /\
    (forall j' th', (j' < j)%nat -> thicknesses !! j' = Some th' ->
       exists props, fitted_at' g d th' props).
Proof.
  rewrite thickness_comp_unfold.
  destruct (traverse _ diameters) as [grid|e'] eqn:Hgrid; [discriminate|].
  intros [= -> _].
  apply traverse_Raise in Hgrid as (i & d & Hi & Hrow & _).
  apply traverse_Raise in Hrow as (j & th & Hj & Hpoint & Hbefore).
  exists i, j, d, th. repeat split; [done..| |].
  - intros errors flux_diff ld ls lp fig0 Hd Hs Hp.
    rewrite (thickness_body_unfold _ _ _ _ _ _ _ _ _ _ _ _ _ _ _ _ Hd Hs Hp).
    by rewrite Hpoint.
  - intros j' th' Hlt Hj'.
    destruct (Hbefore j' th' Hlt Hj') as [[difference props] H].
    exists props. apply grid_point_fitted. eauto.
Qed.

(** X11: a 2D file with the fields but no rows makes the loop body raise
    [IndexError] at the flux difference, before any fit. *)
Theorem thickness_body_empty_file g diameter thickness errors flux_diff fig
    data_1d data_2d t_1d t_2d top_1d surface_2 surface_1 :
  genfromtxt (derived_quantities format_2f thickness diameter "1d") = Ok data_1d ->
  genfromtxt (derived_quantities format_2f thickness diameter "2d") = Ok data_2d ->
  data_1d !! "ts" = Some t_1d ->
  data_2d !! "ts" = Some t_2d ->
  data_1d !! "solute_flux_surface_3" = Some top_1d ->
  data_2d !! "solute_flux_surface_3" = Some [] ->
  data_2d !! "solute_flux_surface_2" = Some surface_2 ->
  data_2d !! "solute_flux_surface_1" = Some surface_1 ->
  thickness_body' g diameter thickness (errors, flux_diff) fig
    = (Raise (Exn "IndexError"), fig).
Proof.
  intros H1 H2 H3 H4 H5 H6 H7 H8.
  unfold thickness_body, mbind, M_bind, lift, field. cbn [fst snd].
  by rewrite H1, H2, H3, H4, H5, H6, H7, H8.
Qed.

End SweepFacts.

Section OneDData.

Variable downstream_flux_salt :
  list float -> float -> float -> float -> float -> list float.
Variable curve_fit :
  Model -> list float -> list float -> float * float -> result FitOutput.
Variable genfromtxt genfromtxt' : string -> result (gmap string (list float)).
Variable format_2f : float -> string.
Variable float_pow : float -> float -> float.
Variable T_values : list float.
Variable T_val : float.
Variable P_up : float.

(** X9: the values in the 1D files play no part in the sweep: two readers that
    agree on the 2D files, and whose 1D files load and hold the fields
    [ts] and [solute_flux_surface_3], give the same grids. *)
Theorem thickness_comp_ignores_1d_data g thicknesses diameters fig :
  (forall d th, d ∈ diameters -> th ∈ thicknesses ->
     genfromtxt' (derived_quantities format_2f th d "2d")
     = genfromtxt (derived_quantities format_2f th d "2d")) ->
  (forall d th, d ∈ diameters -> th ∈ thicknesses ->
     reads_1d genfromtxt format_2f d th /\ reads_1d genfromtxt' format_2f d th) ->
  thickness_comp downstream_flux_salt curve_fit genfromtxt' format_2f float_pow
    T_values T_val P_up g thicknesses diameters fig
  = thickness_comp downstream_flux_salt curve_fit genfromtxt format_2f float_pow
      T_values T_val P_up g thicknesses diameters fig.
Proof.
  intros H2d H1d. rewrite !thickness_comp_unfold.
  assert (Hgrid :
    traverse (fun d => traverse
       (grid_point downstream_flux_salt curve_fit genfromtxt' format_2f
          float_pow T_val P_up g d) thicknesses) diameters
    = traverse (fun d => traverse
       (grid_point downstream_flux_salt curve_fit genfromtxt format_2f
          float_pow T_val P_up g d) thicknesses) diameters).
  { apply traverse_ext_in. intros d Hd.
    apply traverse_ext_in. intros th Hth.
    destruct (H1d d th Hd Hth)
      as [(data & Ha & [t Ht] & [s Hs]) (data' & Ha' & [t' Ht'] & [s' Hs'])].
    unfold grid_point, field.
    by rewrite Ha, Ha', (H2d d th Hd Hth), Ht, Ht', Hs, Hs'. }
  by rewrite Hgrid.
Qed.

(** X10: the flux the sweep hands to [prop_errors] carries no sign when the
    squared radius carries none, so the absolute value taken inside
    [prop_errors] leaves it as it is: the solver is given that flux. *)
Theorem sweep_flux_reaches_solver g diameter surface_3 t_2d thickness :
  abs (float_pow (diameter / 2) 2) = float_pow (diameter / 2) 2 ->
  np_abs
    (map (fun x => (abs x / NP_PI / float_pow (diameter / 2) 2)%float) surface_3)
  = map (fun x => (abs x / NP_PI / float_pow (diameter / 2) 2)%float) surface_3 /\
  fit_call downstream_flux_salt curve_fit g
    (map (fun x => (abs x / NP_PI / float_pow (diameter / 2) 2)%float) surface_3)
    t_2d thickness T_val P_up
  = curve_fit
      (fun t permeability D =>
         downstream_flux_salt t P_up thickness permeability D)
      t_2d
      (map (fun x => (abs x / NP_PI / float_pow (diameter / 2) 2)%float) surface_3)
      (guess g T_val).
Proof.
  intros Hpow.
  assert (Habs : np_abs
    (map (fun x => (abs x / NP_PI / float_pow (diameter / 2) 2)%float) surface_3)
  = map (fun x => (abs x / NP_PI / float_pow (diameter / 2) 2)%float) surface_3).
  { unfold np_abs. rewrite map_map. apply map_ext. intros x.
    apply float_abs_div; [|exact Hpow].
    apply float_abs_div; [apply float_abs_idem|reflexivity]. }
  split; [exact Habs|]. unfold fit_call. by rewrite Habs.
Qed.

End OneDData.

(** ** The plotting branch and exact fits *)

Section Plotting.

Variable downstream_flux_salt :
  list float -> float -> float -> float -> float -> list float.
Variable curve_fit :
  Model -> list float -> list float -> float * float -> result FitOutput.

#[local] Abbreviation prop_errors' := (prop_errors downstream_flux_salt curve_fit).
#[local] Abbreviation fit_call' := (fit_call downstream_flux_salt curve_fit).



(** X3: when the solver returns its initial guess unchanged, and the reference
    diffusivity and permeability are finite and not zero, the diffusivity
    and permeability errors are zero. *)
Theorem exact_seed_gives_zero_errors g flux times L T P plot fig cov :
  fit_call' g flux times L T P = Ok (guess g T, cov) ->
  is_finite (reference_diffusivity g T) = true ->
  is_zero (reference_diffusivity g T) = false ->
  is_finite (reference_permeability g T) = true ->
  is_zero (reference_permeability g T) = false ->
  exists d diff_error perm_error,
    fst (prop_errors' g flux times L T P plot fig) = Ok d /\
    d !! KEY_DIFF = Some diff_error /\
    d !! KEY_PERM = Some perm_error /\
    PrimFloat.eqb diff_error 0 = true /\
    PrimFloat.eqb perm_error 0 = true.
Proof.
  intros Hfit HDf HDz HPf HPz.
  exists (error_report g T (guess g T)).
  eexists _, _. split.
  { apply prop_errors_Ok. eauto. }
  split; [apply error_report_diff|]. split; [apply error_report_perm|].
  split.
  - by apply rel_error_same.
  - assert (Hg : fst (guess g T) = reference_permeability g T)
      by apply float_mul_comm.
    rewrite Hg. by apply rel_error_same.
Qed.

End Plotting.

(** * The sweep on concrete files *)

Lemma thickness_comp_shape_witness :
  SampleSweep.thickness_comp SampleSweep.genfromtxt []
    = (Ok (fst SampleSweep.expected, snd SampleSweep.expected), []) /\
  has_shape 2 1 (oe_diffusivity_error (fst SampleSweep.expected)) /\
  has_shape 2 1 (oe_solubility_error (fst SampleSweep.expected)) /\
  has_shape 2 1 (oe_permeability_error (fst SampleSweep.expected)) /\
  has_shape 2 1 (snd SampleSweep.expected).
Proof.
  assert (H : SampleSweep.thickness_comp SampleSweep.genfromtxt []
              = (Ok (fst SampleSweep.expected, snd SampleSweep.expected), []))
    by (vm_compute; reflexivity).
  split; [exact H|].
  exact (thickness_comp_shape Sample.downstream_flux_salt Sample.curve_fit
           SampleSweep.genfromtxt SampleSweep.format_2f SampleSweep.float_pow
           SampleSweep.T_values 1024 1 Sample.globals
           SampleSweep.thicknesses SampleSweep.diameters [] _ _ [] H).
Defined.

(** Row 1, column 0 is the grid point of diameter 4 and thickness 1. *)
Lemma thickness_comp_entries_witness :
  (SampleSweep.thickness_comp SampleSweep.genfromtxt []
     = (Ok (fst SampleSweep.expected, snd SampleSweep.expected), []) /\
   SampleSweep.diameters !! 1%nat = Some 4%float /\
   SampleSweep.thicknesses !! 0%nat = Some 1%float) /\
  exists props,
    fitted_at Sample.downstream_flux_salt Sample.curve_fit
      SampleSweep.genfromtxt SampleSweep.format_2f SampleSweep.float_pow
      1024 1 Sample.globals 4 1 props /\
    oe_diffusivity_error (fst SampleSweep.expected) !! 1%nat ≫= (.!! 0%nat)
      = Some ((reference_diffusivity Sample.globals 1024 - snd props)
              / reference_diffusivity Sample.globals 1024 * 100)%float /\
    oe_solubility_error (fst SampleSweep.expected) !! 1%nat ≫= (.!! 0%nat)
      = Some ((reference_solubility Sample.globals 1024 - fst props / snd props)
              / reference_solubility Sample.globals 1024 * 100)%float /\
    oe_permeability_error (fst SampleSweep.expected) !! 1%nat ≫= (.!! 0%nat)
      = Some ((reference_diffusivity Sample.globals 1024
               * reference_solubility Sample.globals 1024 - fst props)
              / (reference_diffusivity Sample.globals 1024
                 * reference_solubility Sample.globals 1024) * 100)%float.
Proof.
  assert (H : SampleSweep.thickness_comp SampleSweep.genfromtxt []
              = (Ok (fst SampleSweep.expected, snd SampleSweep.expected), []))
    by (vm_compute; reflexivity).
  assert (Hi : SampleSweep.diameters !! 1%nat = Some 4%float) by reflexivity.
  assert (Hj : SampleSweep.thicknesses !! 0%nat = Some 1%float) by reflexivity.
  split; [by repeat split|].
  exact (thickness_comp_entries Sample.downstream_flux_salt Sample.curve_fit
           SampleSweep.genfromtxt SampleSweep.format_2f SampleSweep.float_pow
           SampleSweep.T_values 1024 1 Sample.globals
           SampleSweep.thicknesses SampleSweep.diameters [] _ _ []
           1%nat 0%nat 4%float 1%float H Hi Hj).
Defined.

(** With the empty 2D file the sweep raises [IndexError]. *)
Lemma thickness_comp_failure_witness :
  SampleSweep.thickness_comp (SampleSweep.read SampleSweep.empty_files) []
    = (Raise (Exn "IndexError"), []) /\
  exists i j d th,
    SampleSweep.diameters !! i = Some d /\
    SampleSweep.thicknesses !! j = Some th /\
    (forall errors flux_diff ld ls lp fig0,
       errors !! KEY_DIFF = Some ld ->
       errors !! KEY_SOL = Some ls ->
       errors !! KEY_PERM = Some lp ->
       thickness_body Sample.downstream_flux_salt Sample.curve_fit
         (SampleSweep.read SampleSweep.empty_files) SampleSweep.format_2f
         SampleSweep.float_pow 1024 1 Sample.globals d th
         (errors, flux_diff) fig0
       = (Raise (Exn "IndexError"), fig0)) /\
    (forall j' th', (j' < j)%nat -> SampleSweep.thicknesses !! j' = Some th' ->
       exists props,
         fitted_at Sample.downstream_flux_salt Sample.curve_fit
           (SampleSweep.read SampleSweep.empty_files) SampleSweep.format_2f
           SampleSweep.float_pow 1024 1 Sample.globals d th' props).
Proof.
  assert (H : SampleSweep.thickness_comp
                (SampleSweep.read SampleSweep.empty_files) []
              = (Raise (Exn "IndexError"), []))
    by (vm_compute; reflexivity).
  split; [exact H|].
  exact (thickness_comp_failure Sample.downstream_flux_salt Sample.curve_fit
           (SampleSweep.read SampleSweep.empty_files) SampleSweep.format_2f
           SampleSweep.float_pow SampleSweep.T_values 1024 1 Sample.globals
           SampleSweep.thicknesses SampleSweep.diameters [] _ [] H).
Defined.

Lemma thickness_body_empty_file_witness :
  thickness_body Sample.downstream_flux_salt Sample.curve_fit
    (SampleSweep.read SampleSweep.empty_files) SampleSweep.format_2f
    SampleSweep.float_pow 1024 1 Sample.globals 2 1 (Sample.errors0, []) []
  = (Raise (Exn "IndexError"), []).
Proof.
  apply (thickness_body_empty_file Sample.downstream_flux_salt Sample.curve_fit
           (SampleSweep.read SampleSweep.empty_files) SampleSweep.format_2f
           SampleSweep.float_pow 1024 1 Sample.globals 2 1 Sample.errors0 [] []
           SampleSweep.one_d (SampleSweep.table [] [] [] [])
           [0; 0.25]%float [] [0; 5]%float [] []);
    vm_compute; reflexivity.
Defined.

(** Other 1D files beside the same 2D files: the same grids. *)
Lemma thickness_comp_ignores_1d_data_witness :
  SampleSweep.thickness_comp SampleSweep.other_genfromtxt []
  = SampleSweep.thickness_comp SampleSweep.genfromtxt [].
Proof.
  apply (thickness_comp_ignores_1d_data Sample.downstream_flux_salt
           Sample.curve_fit SampleSweep.genfromtxt SampleSweep.other_genfromtxt
           SampleSweep.format_2f SampleSweep.float_pow SampleSweep.T_values
           1024 1 Sample.globals SampleSweep.thicknesses SampleSweep.diameters []).
  - intros d th Hd Hth. unfold SampleSweep.diameters, SampleSweep.thicknesses in *.
    apply list_elem_of_singleton in Hth as ->.
    apply elem_of_cons in Hd as [->|Hd];
      [|apply list_elem_of_singleton in Hd as ->]; vm_compute; reflexivity.
  - intros d th Hd Hth. unfold SampleSweep.diameters, SampleSweep.thicknesses in *.
    apply list_elem_of_singleton in Hth as ->.
    apply elem_of_cons in Hd as [->|Hd];
      [|apply list_elem_of_singleton in Hd as ->];
      (split;
       [exists SampleSweep.one_d|exists SampleSweep.other_one_d];
       (split; [vm_compute; reflexivity|split; eexists; vm_compute; reflexivity])).
Defined.

(** Diameter 4: the squared radius 4 has no sign. *)
Lemma sweep_flux_reaches_solver_witness :
  abs (SampleSweep.float_pow (4 / 2) 2) = SampleSweep.float_pow (4 / 2) 2 /\
  np_abs (map (fun x => (abs x / NP_PI / SampleSweep.float_pow (4 / 2) 2)%float)
            [0; -8]%float)
  = map (fun x => (abs x / NP_PI / SampleSweep.float_pow (4 / 2) 2)%float)
      [0; -8]%float.
Proof.
  assert (H : abs (SampleSweep.float_pow (4 / 2) 2)
              = SampleSweep.float_pow (4 / 2) 2) by reflexivity.
  split; [exact H|].
  exact (proj1 (sweep_flux_reaches_solver Sample.downstream_flux_salt
                  Sample.curve_fit SampleSweep.float_pow 1024 1 Sample.globals
                  4 [0; -8]%float [0; 0.25]%float 1 H)).
Defined.

(** The reference flux: the solver returns the guess (2, 4). *)
Lemma exact_seed_gives_zero_errors_witness :
  fit_call Sample.downstream_flux_salt Sample.curve_fit Sample.globals
    Sample.flux Sample.times 1 1024 1
  = Ok (guess Sample.globals 1024, []) /\
  exists d diff_error perm_error,
    fst (Sample.prop_errors Sample.globals Sample.flux Sample.times
           1 1024 1 false []) = Ok d /\
    d !! KEY_DIFF = Some diff_error /\
    d !! KEY_PERM = Some perm_error /\
    PrimFloat.eqb diff_error 0 = true /\
    PrimFloat.eqb perm_error 0 = true.
Proof.
  assert (H : fit_call Sample.downstream_flux_salt Sample.curve_fit
                Sample.globals Sample.flux Sample.times 1 1024 1
              = Ok (guess Sample.globals 1024, []))
    by (vm_compute; reflexivity).
  split; [exact H|].
  exact (exact_seed_gives_zero_errors Sample.downstream_flux_salt
           Sample.curve_fit Sample.globals Sample.flux Sample.times 1 1024 1
           false [] [] H eq_refl eq_refl eq_refl eq_refl).
Defined.
